(** * MediShield Life / MediSave Info Buddy: the Streamlit script [main.py]

    A shallow embedding of the script: the session's message log, the
    [CustomHandler] callbacks that the agents are configured with, the
    start-up sequence (credential, password gate) and the handling of one
    chat prompt.  The agent framework and the language model are external:
    a run of the crew is given by the environment as the sequence of
    callback invocations it performs and the value it finally returns. *)

From Stdlib Require Import String Ascii List Bool Arith Lia.
From stdpp Require Import base option list gmap strings.
Import ListNotations.
Local Open Scope string_scope.
Local Open Scope list_scope.

(** ** Strings *)

(** The two-character escape [\n] of a Python literal. *)
Definition nl : string := String "010"%char EmptyString.

(** Python truthiness of a [str]. *)
Definition truthy (s : string) : bool :=
  match s with
  | EmptyString => false
  | String _ _ => true
  end.

(** ** Session state and what is drawn on the page *)

(** One entry [{"role": r, "content": c}] of [st.session_state.messages]. *)
Record message : Type := Message { role : string; content : string }.

(** Calls into Streamlit (and the crew) in the order the script makes them. *)
Inductive effect : Type :=
| SetPageConfig (layout page_title : string)
| Title (text : string)
| ChatMessage (name body : string)      (* st.chat_message(name).write(body) *)
| ChatInput                             (* st.chat_input() *)
| Kickoff                               (* project_crew.kickoff() *)
| Expander (label body : string).

(** [messages] is [None] while the key is not in [st.session_state]. *)
Record state : Type := State {
  messages : option (list message);
  effects : list effect
}.

(** A dict with string keys, as passed to the callbacks. *)
Abbreviation dict := (gmap string string).

(** ** Script monad: state, exceptions and [st.stop()] *)

Inductive exn : Type :=
| KeyError (key : string)
| AttributeError (name : string)
| TypeError (what : string)
| StreamlitSecretNotFoundError
| ExternalError (what : string).

Inductive outcome (A : Type) : Type :=
| Ret (a : A)
| Stopped
| Raised (e : exn).
Arguments Ret {A} a.
Arguments Stopped {A}.
Arguments Raised {A} e.

Definition M (A : Type) : Type := state -> outcome A * state.

Definition ret {A} (a : A) : M A := fun s => (Ret a, s).

Definition bind {A B} (m : M A) (k : A -> M B) : M B :=
  fun s =>
    match m s with
    | (Ret a, s') => k a s'
    | (Stopped, s') => (Stopped, s')
    | (Raised e, s') => (Raised e, s')
    end.

Definition raise {A} (e : exn) : M A := fun s => (Raised e, s).

Notation "'let!' x ':=' m 'in' k" := (bind m (fun x => k))
  (at level 10, x name, m at level 100, k at level 200).
Notation "'do!' m 'in' k" := (bind m (fun _ => k))
  (at level 10, m at level 100, k at level 200).

(** [st.stop()] *)
Definition st_stop {A} : M A := fun s => (Stopped, s).

Definition emit (e : effect) : M unit :=
  fun s => (Ret tt, {| messages := messages s; effects := effects s ++ [e] |}).

(** [st.chat_message(name).write(body)] *)
Definition chat_write (name body : string) : M unit := emit (ChatMessage name body).

(** Reading the attribute [st.session_state.messages]. *)
Definition get_messages : M (list message) :=
  fun s =>
    match messages s with
    | Some l => (Ret l, s)
    | None => (Raised (AttributeError "messages"), s)
    end.

(** [l.append(m)] on the list object held by the session state. *)
Definition append_message (m : message) : M unit :=
  fun s =>
    match messages s with
    | Some l => (Ret tt, {| messages := Some (l ++ [m]); effects := effects s |})
    | None => (Raised (AttributeError "messages"), s)
    end.

(** [d[k]] *)
Definition getitem (d : dict) (k : string) : M string :=
  match d !! k with
  | Some v => ret v
  | None => raise (KeyError k)
  end.

(** ** [CustomHandler] *)

Record CustomHandler : Type := { agent_name : string }.

(** [__init__] *)
Definition CustomHandler_init (name : string) : CustomHandler :=
  {| agent_name := name |}.

(** In [st.session_state.messages.append({...: outputs['input']})] the list is
    looked up first, then the argument is evaluated, then the list is
    extended. *)
Definition on_chain_start (self : CustomHandler) (serialized outputs : dict) : M unit :=
  let! _ := get_messages in
  let! c := getitem outputs "input" in
  do! append_message {| role := "assistant"; content := c |} in
  let! c' := getitem outputs "input" in
  chat_write "assistant" c'.

Definition on_agent_action (self : CustomHandler) (serialized inputs : dict) : M unit :=
  let! _ := get_messages in
  let! c := getitem inputs "input" in
  do! append_message {| role := "assistant"; content := c |} in
  let! c' := getitem inputs "input" in
  chat_write "assistant" c'.

Definition on_chain_end (self : CustomHandler) (outputs : dict) : M unit :=
  let! _ := get_messages in
  let! c := getitem outputs "output" in
  do! append_message {| role := agent_name self; content := c |} in
  let! c' := getitem outputs "output" in
  chat_write (agent_name self) c'.

(** ** Tools, agents and their registered handlers *)

Definition cpf_medisave_urls : list string :=
  [ "https://www.cpf.gov.sg/member/healthcare-financing/using-your-medisave-savings";
    "https://www.cpf.gov.sg/member/healthcare-financing/using-your-medisave-savings/using-medisave-for-outpatient-treatments";
    "https://www.cpf.gov.sg/member/healthcare-financing/using-your-medisave-savings/using-medisave-for-hospitalisation";
    "https://www.cpf.gov.sg/member/healthcare-financing/using-your-medisave-savings/applying-to-use-your-healthcare-plans" ].

Inductive tool : Type :=
| tool_webscrape       (* ScrapeWebsiteTool(url=cpf_medisave_urls) *)
| pdf_search_tool      (* PDFSearchTool(pdf=...) *)
| file_tool.           (* FileReadTool() *)

(** An agent, with the fields the script's behaviour depends on. *)
Record Agent : Type := {
  Agent_role : string;
  Agent_goal : string;
  Agent_tools : list tool;
  Agent_callbacks : list CustomHandler
}.

Definition information_retrieval_agent : Agent := {|
  Agent_role := "Medishield Information Provider";
  Agent_goal := "To thoroughly and accurately search and extract text, tables, and images from the given PDF document";
  Agent_tools := [pdf_search_tool];
  Agent_callbacks := [CustomHandler_init "Medishield Information Provider"]
|}.

Definition researcher : Agent := {|
  Agent_role := "Medisave Researcher";
  Agent_goal := "Perform thorough analysis on Singapore CPF medisave URLs to assist users on their healthcare needs.";
  Agent_tools := [tool_webscrape];
  Agent_callbacks := [CustomHandler_init "Medisave Researcher"]
|}.

Definition customer_service_agent : Agent := {|
  Agent_role := "Customer Service Officer";
  Agent_goal := "Response to the customer query with the relevant information provided by the researcher agent or the information retrieval agent, ensuring the responses are accurate, helpful, easy to read and understand.";
  Agent_tools := [file_tool];
  Agent_callbacks := [CustomHandler_init "Customer Service Officer"]
|}.

(** [manager_callbacks=[CustomHandler("Crew Manager")]] *)
Definition manager_callbacks : list CustomHandler := [CustomHandler_init "Crew Manager"].

(** ** Tasks *)

(** [str] of a tuple of plain strings, as an f-string renders it. *)
Fixpoint join (sep : string) (l : list string) : string :=
  match l with
  | [] => ""
  | [x] => x
  | x :: rest => x +:+ sep +:+ join sep rest
  end.

Definition str_tuple (l : list string) : string :=
  "(" +:+ join ", " (map (fun s => "'" +:+ s +:+ "'") l) +:+ ")".

(** The indentation inside the triple-quoted descriptions. *)
Definition indent : string := "                    ".

(** A triple-quoted literal whose body lines are [ls]: a newline, the
    indented lines, and the indentation before the closing quotes. *)
Definition block (ls : list string) : string :=
  nl +:+ fold_right (fun l acc => indent +:+ l +:+ nl +:+ acc) indent ls.

(** The reply the customer-service task asks for when there is no answer. *)
Definition fallback : string := "I'm sorry. I do not have the answer to this enquiry.".

(** The keywords listed in step 1 of the information provider's task. *)
Definition keywords_text : list string :=
  [ "Medishield, benefit, coverage, premium, payment, policy, subsidies,";
    "deductible, claim, co-insurance, exclusions, insurance, healthcare, protection, hospital, ward, ";
    "outpatient, surgery, treatment,  pro-ration, withdrawal, limit." ].

Record Task : Type := {
  description : string;
  agent : Agent;
  expected_output : string
}.

(** [tool_str] is how [{pdf_search_tool}] is rendered in the f-string. *)
Definition task_medishield_information_provider (tool_str prompt : string) : Task := {|
  description := block (
    [ "Your instructions are as follows:";
      "Step 1: Check does '" +:+ prompt +:+ "' contain keywords: " +:+ nth 0 keywords_text "";
      nth 1 keywords_text "";
      nth 2 keywords_text "";
      "Step 2: If '" +:+ prompt +:+ "' NO keywords, PASS THE TASK TO NEXT AGENT AND END YOUR TASK IMMEDIATELY. ";
      "Step 3: If '" +:+ prompt +:+ "' have keywords, GO to PDF document in (" +:+ tool_str +:+ ").";
      "Step 4: Use the tools to extract every piece of relevant information from the PDF ONLY which are related to '" +:+ prompt +:+ "'.";
      "Step 5: Present the extracted information in a clear, structured format, such as lists or tables, to enhance readability." ]);
  agent := information_retrieval_agent;
  expected_output := "Present relevant information in a clear, structured format, such as lists or tables for the customer service agent to complete the task."
|}.

Definition task_medisave_researcher (prompt : string) : Task := {|
  description := block (
    [ "Your instructions are as follows:";
      "Step 1: Analyze all CPF medisave URLs provided in (" +:+ str_tuple cpf_medisave_urls +:+ ") to extract relevant information related to '" +:+ prompt +:+ "'.";
      "Step 2: Use the tools to gather relevant information from CPF medisave urls provided in (" +:+ str_tuple cpf_medisave_urls +:+ ") ONLY.";
      "Step 3: If you are not able to find anything on all CPF medisave URLs provided in (" +:+ str_tuple cpf_medisave_urls +:+ "), END YOUR TASK IMMEDIATELY." ]);
  agent := researcher;
  expected_output := "A structured list of relevant information for the customer service agent to complete the task."
|}.

Definition task_customer_service_agent : Task := {|
  description := block (
    [ "Your instructions are as follows:";
      "Use ONLY the FINAL answer given by the information retrieval agent or researcher agent.";
      "DO NOT ADD any additional information.";
      "DO NOT MAKE UP any information. If you DO NOT have the information or answers, response: '" +:+ fallback +:+ "' ";
      "Write a detailed response to the customer with the following:";
      "1. Fellow Citizen, thank you for your enquiry.";
      "2. Detailed response with the FINAL answer in a clear and concise format.";
      "3. If you DO NOT have the information or answers, just say: '" +:+ fallback;
      "4. Lastly, provide customer a healthcare tip at the end of the conversation." ]);
  agent := customer_service_agent;
  expected_output := "Write a detailed response to the customer in a clear and concise format with the FINAL answer given by the information retrieval agent or researcher agent ONLY."
|}.

Inductive Process : Type := sequential | hierarchical.

Record Crew : Type := {
  tasks : list Task;
  agents : list Agent;
  process : Process;
  Crew_manager_callbacks : list CustomHandler
}.

Definition project_crew (tool_str prompt : string) : Crew := {|
  tasks := [ task_medishield_information_provider tool_str prompt;
             task_medisave_researcher prompt;
             task_customer_service_agent ];
  agents := [information_retrieval_agent; researcher; customer_service_agent];
  process := hierarchical;
  Crew_manager_callbacks := manager_callbacks
|}.

(** ** The environment of a script run *)

(** The members of the crew that have a handler registered. *)
Inductive member : Type :=
| InformationProvider
| Researcher
| CustomerService
| Manager.

Definition handlers_of (m : member) : list CustomHandler :=
  match m with
  | InformationProvider => Agent_callbacks information_retrieval_agent
  | Researcher => Agent_callbacks researcher
  | CustomerService => Agent_callbacks customer_service_agent
  | Manager => manager_callbacks
  end.

(** The object the framework hands to [on_agent_action]. *)
Record AgentAction : Type := {
  action_tool : string;
  action_tool_input : string;
  action_log : string
}.

(** A callback invocation made by the framework while the crew runs, with
    the positional arguments it passes: the serialized chain and its inputs
    at a start, the action alone at an agent action, the outputs at an end
    (run ids and tags come as keyword arguments). *)
Inductive hook : Type :=
| chain_start (serialized outputs : dict)
| agent_action (action : AgentAction)
| chain_end (outputs : dict).

(** What [kickoff()] does, seen from the script: the callbacks it invokes, in
    order, and the value it returns as the f-string renders it ([None] when
    it raises instead). *)
Record crew_run : Type := {
  calls : list (member * hook);
  final : option string
}.

(** Everything the script reads from outside.  [secrets] is [None] when
    there is no secrets file.  [check_password] comes from
    [helper_functions.utility], of which the script uses only the boolean
    result.  [OpenAI_accepts k] tells whether [OpenAI(api_key=k)] constructs
    a client; [setup_ok] whether the chat model, the tools and the agents can
    be constructed; [raise_error] is the handlers' inherited attribute of that
    name: whether an exception in a callback is propagated by the framework. *)
Record world : Type := {
  load_dotenv : bool;
  environ : dict;
  secrets : option dict;
  OpenAI_accepts : option string -> bool;
  setup_ok : bool;
  pdf_search_tool_str : string;
  check_password : bool;
  chat_input : option string;
  kickoff : Crew -> crew_run;
  raise_error : bool
}.

(** ** Running the crew *)

(** The call the framework makes on a handler.  [on_agent_action] is
    declared with two positional parameters, [serialized] and [inputs], and
    is called with one, the action: binding the arguments fails and the body
    is not entered. *)
Definition invoke (h : CustomHandler) (k : hook) : M unit :=
  match k with
  | chain_start serialized outputs => on_chain_start h serialized outputs
  | agent_action action =>
      raise (TypeError "on_agent_action() missing 1 required positional argument: 'inputs'")
  | chain_end outputs => on_chain_end h outputs
  end.

(** An exception raised by a handler is passed on only under [raise_error]. *)
Definition guarded (propagate : bool) (m : M unit) : M unit :=
  fun s =>
    match m s with
    | (Raised e, s') => if propagate then (Raised e, s') else (Ret tt, s')
    | r => r
    end.

Fixpoint for_each {A} (f : A -> M unit) (l : list A) : M unit :=
  match l with
  | [] => ret tt
  | x :: rest => do! f x in for_each f rest
  end.

Definition dispatch (w : world) (c : member * hook) : M unit :=
  for_each (fun h => guarded (raise_error w) (invoke h (snd c))) (handlers_of (fst c)).

Definition project_crew_kickoff (w : world) (crew : Crew) : M string :=
  do! emit Kickoff in
  do! for_each (dispatch w) (calls (kickoff w crew)) in
  match final (kickoff w crew) with
  | Some out => ret out
  | None => raise (ExternalError "kickoff")
  end.

(** ** The script *)

(** The literal part of the f-string that builds [result]. *)
Definition result_prefix : string :=
  "## Thanks for waiting. Here is the information you requested. " +:+ nl +:+ nl +:+ " ".

Definition result (final : string) : string := result_prefix +:+ final.

Definition greeting : message :=
  {| role := "assistant";
     content := "How can I help you navigate your healthcare planning today? Your well-being is our priority!" |}.

Definition disclaimer : string :=
  "IMPORTANT NOTICE: This web application is a prototype developed for educational purposes only. " +:+
  "       The information provided here is NOT intended for real-world usage and should not be relied upon for making any decisions, " +:+
  "       especially those related to financial, legal, or healthcare matters. Furthermore, please be aware that the LLM may generate " +:+
  "       inaccurate or incorrect information. You assume full responsibility for how you use any generated output. Always consult with " +:+
  "       qualified professionals for accurate and personalized advice.".

(** Lines 19-23: where [OPENAI_KEY] comes from.  [os.getenv] gives [None]
    for an unset variable; [st.secrets[...]] raises when there is no secrets
    file, and when the file has no such key. *)
Definition load_key (w : world) : M (option string) :=
  if load_dotenv w then ret (environ w !! "OPENAI_API_KEY")
  else
    match secrets w with
    | None => raise StreamlitSecretNotFoundError
    | Some file =>
        match file !! "OPENAI_API_KEY" with
        | Some k => ret (Some k)
        | None => raise (KeyError "OPENAI_API_KEY")
        end
    end.

(** Lines 26-107: the client, the chat model, the tools and the agents. *)
Definition construct (w : world) (OPENAI_KEY : option string) : M unit :=
  if OpenAI_accepts w OPENAI_KEY then
    if setup_ok w then ret tt else raise (ExternalError "setup")
  else raise (ExternalError "OpenAI").

(** Lines 127-128. *)
Definition init_messages : M unit :=
  fun s =>
    match messages s with
    | Some _ => (Ret tt, s)
    | None => (Ret tt, {| messages := Some [greeting]; effects := effects s |})
    end.

(** Lines 136-195: the body of [if prompt := st.chat_input():]. *)
Definition handle_prompt (w : world) (prompt : string) : M unit :=
  do! append_message {| role := "user"; content := prompt |} in
  do! chat_write "user" prompt in
  let! final := project_crew_kickoff w (project_crew (pdf_search_tool_str w) prompt) in
  do! append_message {| role := "assistant"; content := result final |} in
  chat_write "assistant" (result final).

(** Lines 109-203: the page, from [st.set_page_config] on. *)
Definition app (w : world) : M unit :=
  do! emit (SetPageConfig "centered" "My Streamlit App") in
  do! emit (Title "Dear Citizen, Welcome to your MediShield Life and MediSave's Info Buddy!") in
  do! (if negb (check_password w) then st_stop else ret tt) in
  do! init_messages in
  let! msgs := get_messages in
  do! for_each (fun msg => chat_write (role msg) (content msg)) msgs in
  do! emit ChatInput in
  do! match chat_input w with
      | Some prompt => if truthy prompt then handle_prompt w prompt else ret tt
      | None => ret tt
      end in
  emit (Expander "Disclaimer" disclaimer).

Definition main (w : world) : M unit :=
  let! OPENAI_KEY := load_key w in
  do! construct w OPENAI_KEY in
  app w.

(** One execution of the script: the page starts empty, the session state is
    what the previous executions left. *)
Definition run (w : world) (session : option (list message)) : outcome unit * state :=
  main w {| messages := session; effects := [] |}.

(** ** What a turn leaves in the log and on the page *)

(** The entry a callback appends; none when the dict lacks the key it reads,
    and none for an agent action, whose call fails. *)
Definition hook_entry (h : CustomHandler) (k : hook) : option message :=
  match k with
  | chain_start _ outputs => Message "assistant" <$> outputs !! "input"
  | agent_action _ => None
  | chain_end outputs => Message (agent_name h) <$> outputs !! "output"
  end.

Definition well_formed (k : hook) : bool :=
  match k with
  | chain_start _ outputs => bool_decide (is_Some (outputs !! "input"))
  | agent_action _ => false
  | chain_end outputs => bool_decide (is_Some (outputs !! "output"))
  end.

Definition call_entries (c : member * hook) : list message :=
  flat_map (fun h => option_list (hook_entry h (snd c))) (handlers_of (fst c)).

(** The entries the callbacks of a crew run append, in order. *)
Definition turn_entries (cs : list (member * hook)) : list message :=
  flat_map call_entries cs.

(** The log of a session state; empty while the key is not set. *)
Definition log (s : state) : list message := default [] (messages s).

(** [s'] has the log of [s] with entries added at the end, nothing else. *)
Definition grows (s s' : state) : Prop :=
  (is_Some (messages s) -> is_Some (messages s')) /\
  exists added, log s' = log s ++ added.

Definition append_only {A} (m : M A) : Prop := forall s, grows s (snd (m s)).

Definition shown (m : message) : effect := ChatMessage (role m) (content m).

(** The body of the last chat message drawn. *)
Definition chat_body (e : effect) : option string :=
  match e with
  | ChatMessage _ body => Some body
  | _ => None
  end.

Definition visible_answer (s : state) : option string :=
  list.last (omap chat_body (effects s)).

(** The header as a reader sees it, up to the blank line. *)
Definition header : string :=
  "## Thanks for waiting. Here is the information you requested. " +:+ nl +:+ nl.

(** The credential the script ends up with. *)
Definition credential (w : world) : option string :=
  if load_dotenv w then environ w !! "OPENAI_API_KEY"
  else match secrets w with
       | Some file => file !! "OPENAI_API_KEY"
       | None => None
       end.

(** ** Example environments *)

(** The client constructor as its library documents it: a missing key is
    refused. *)
Definition needs_key (k : option string) : bool :=
  match k with
  | Some _ => true
  | None => false
  end.

(** A deployment with a [.env] file that sets the key. *)
Definition world_with_key (pw : bool) (input : option string) (r : crew_run) : world := {|
  load_dotenv := true;
  environ := {[ "OPENAI_API_KEY" := "sk-test" ]};
  secrets := None;
  OpenAI_accepts := needs_key;
  setup_ok := true;
  pdf_search_tool_str := "PDFSearchTool";
  check_password := pw;
  chat_input := input;
  kickoff := fun _ => r;
  raise_error := false
|}.

(** A deployment whose [.env] sets something, but not the key. *)
Definition world_without_key : world := {|
  load_dotenv := true;
  environ := {[ "LOG_LEVEL" := "debug" ]};
  secrets := None;
  OpenAI_accepts := needs_key;
  setup_ok := true;
  pdf_search_tool_str := "PDFSearchTool";
  check_password := true;
  chat_input := Some "hello";
  kickoff := fun _ => {| calls := []; final := Some fallback |};
  raise_error := false
|}.

(** A deployment with neither a [.env] file nor a secrets file. *)
Definition world_without_secret : world := {|
  load_dotenv := false;
  environ := empty;
  secrets := None;
  OpenAI_accepts := needs_key;
  setup_ok := true;
  pdf_search_tool_str := "PDFSearchTool";
  check_password := true;
  chat_input := Some "hello";
  kickoff := fun _ => {| calls := []; final := Some fallback |};
  raise_error := false
|}.

(** A crew run in which no search agent reports anything and the crew
    returns the no-answer sentence. *)
Definition run_no_findings : crew_run := {| calls := []; final := Some fallback |}.

(** A crew run in which the manager starts, the researcher searches and
    reports, and the crew returns a reply. *)
Definition run_researcher : crew_run := {|
  calls :=
    [ (Manager, chain_start empty {[ "input" := "Can I use MediSave for dialysis?" ]});
      (Researcher,
       agent_action {| action_tool := "Read website content";
                       action_tool_input := "{}";
                       action_log := "I should read the MediSave pages." |});
      (Researcher, chain_end {[ "output" := "MediSave can be used for renal dialysis." ]}) ];
  final := Some "Fellow Citizen, thank you for your enquiry. MediSave can be used for renal dialysis."
|}.

(** A crew run in which the manager starts and [kickoff()] then raises. *)
Definition run_crashed : crew_run := {|
  calls := [ (Manager, chain_start empty {[ "input" := "What is the claim limit?" ]}) ];
  final := None
|}.

(** A deployment without a [.env] file and without a secrets file, where
    the key is exported in the process environment. *)
Definition world_env_only : world := {|
  load_dotenv := false;
  environ := {[ "OPENAI_API_KEY" := "sk-test" ]};
  secrets := None;
  OpenAI_accepts := needs_key;
  setup_ok := true;
  pdf_search_tool_str := "PDFSearchTool";
  check_password := true;
  chat_input := Some "hello";
  kickoff := fun _ => run_no_findings;
  raise_error := false
|}.



(** ** Further notions used to describe whole executions *)

(** Whether lines 19-107 run through: the key is found (or [os.getenv] gave
    [None]), the client accepts it, and the model, tools and agents are
    constructed. *)
Definition starts_up (w : world) : bool :=
  match credential w with
  | Some k => OpenAI_accepts w (Some k) && setup_ok w
  | None => load_dotenv w && OpenAI_accepts w None && setup_ok w
  end.

(** The prompt that passes [if prompt := st.chat_input():]. *)
Definition submitted (w : world) : option string :=
  match chat_input w with
  | Some prompt => if truthy prompt then Some prompt else None
  | None => None
  end.

(** The log the page is drawn from: the session's, or the greeting alone. *)
Definition opening_log (session : option (list message)) : list message :=
  default [greeting] session.

(** What the page shows down to the chat history. *)
Definition page_top (l : list message) : list effect :=
  [ SetPageConfig "centered" "My Streamlit App";
    Title "Dear Citizen, Welcome to your MediShield Life and MediSave's Info Buddy!" ]
  ++ map shown l.

(** Lines 135-203 of the page: the chat input, the turn, the disclaimer. *)
Definition prompt_and_disclaimer (w : world) : M unit :=
  do! emit ChatInput in
  do! match chat_input w with
      | Some prompt => if truthy prompt then handle_prompt w prompt else ret tt
      | None => ret tt
      end in
  emit (Expander "Disclaimer" disclaimer).

(** The chat messages among the calls made, as log entries. *)
Definition chat_entry (e : effect) : option message :=
  match e with
  | ChatMessage name body => Some (Message name body)
  | _ => None
  end.

Definition chats (es : list effect) : list message := omap chat_entry es.

(** The page shows the log: the chat messages drawn are the log's entries. *)
Definition synced (s : state) : Prop := messages s = Some (chats (effects s)).

(** The names under which the script ever writes to the log. *)
Definition registered_names : list string :=
  map agent_name
    (flat_map handlers_of [InformationProvider; Researcher; CustomerService; Manager]).

Definition known_role (m : message) : Prop :=
  In (role m) ("user" :: "assistant" :: registered_names).

Definition preserves (P : state -> Prop) {A} (m : M A) : Prop :=
  forall s, P s -> P (snd (m s)).

(** Append an entry and draw it, as every writer to the log does. *)
Definition post (m : message) : M unit :=
  do! append_message m in chat_write (role m) (content m).

(** The execution under [w] starts up, passes the gate, takes [prompt], and
    its crew returns [out] with every callback handled. *)
Definition completes (w : world) (prompt out : string) : Prop :=
  starts_up w = true /\ check_password w = true /\ submitted w = Some prompt
  /\ final (kickoff w (project_crew (pdf_search_tool_str w) prompt)) = Some out
  /\ (raise_error w = false
      \/ forallb (fun c => well_formed (snd c))
           (calls (kickoff w (project_crew (pdf_search_tool_str w) prompt))) = true).

(** The entries such a turn adds to the log. *)
Definition turn_log (w : world) (prompt out : string) : list message :=
  [Message "user" prompt]
  ++ turn_entries (calls (kickoff w (project_crew (pdf_search_tool_str w) prompt)))
  ++ [Message "assistant" (result out)].

(** ** Lemmas on the handlers *)

Ltac run_monad :=
  unfold on_chain_start, on_agent_action, on_chain_end, bind, get_messages,
    getitem, append_message, chat_write, emit, ret, raise, st_stop; simpl.

Lemma on_chain_start_run h serialized outputs l eff c :
  outputs !! "input" = Some c ->
  on_chain_start h serialized outputs (State (Some l) eff)
  = (Ret tt, State (Some (l ++ [Message "assistant" c])) (eff ++ [ChatMessage "assistant" c])).
Proof. intros Hc. run_monad. rewrite Hc. reflexivity. Qed.

Lemma on_agent_action_run h serialized inputs l eff c :
  inputs !! "input" = Some c ->
  on_agent_action h serialized inputs (State (Some l) eff)
  = (Ret tt, State (Some (l ++ [Message "assistant" c])) (eff ++ [ChatMessage "assistant" c])).
Proof. intros Hc. run_monad. rewrite Hc. reflexivity. Qed.

Lemma on_chain_end_run h outputs l eff c :
  outputs !! "output" = Some c ->
  on_chain_end h outputs (State (Some l) eff)
  = (Ret tt, State (Some (l ++ [Message (agent_name h) c])) (eff ++ [ChatMessage (agent_name h) c])).
Proof. intros Hc. run_monad. rewrite Hc. reflexivity. Qed.

Lemma invoke_entry h k l eff m :
  hook_entry h k = Some m ->
  invoke h k (State (Some l) eff) = (Ret tt, State (Some (l ++ [m])) (eff ++ [shown m])).
Proof.
  destruct k as [ser o | a | o]; simpl; intros Hm.
  - destruct (o !! "input") as [c|] eqn:Hc; inversion Hm; subst.
    now apply on_chain_start_run.
  - discriminate.
  - destruct (o !! "output") as [c|] eqn:Hc; inversion Hm; subst.
    now apply on_chain_end_run.
Qed.

Lemma invoke_no_entry h k s :
  hook_entry h k = None -> exists e, invoke h k s = (Raised e, s).
Proof.
  destruct s as [[l|] eff]; destruct k as [ser o | a | o]; simpl; intros Hm;
    run_monad; eauto.
  - destruct (o !! "input"); [discriminate | eauto].
  - destruct (o !! "output"); [discriminate | eauto].
Qed.

Lemma well_formed_entry h k : well_formed k = true -> is_Some (hook_entry h k).
Proof.
  destruct k; simpl; [| discriminate |];
    intros H%bool_decide_eq_true; destruct H as [c ->]; eauto.
Qed.

(** ** Lemmas on loops and on running the crew *)

Lemma for_each_appends {A} (f : A -> M unit) (g : A -> list message) (xs : list A) :
  (forall x l eff, In x xs ->
     f x (State (Some l) eff) = (Ret tt, State (Some (l ++ g x)) (eff ++ map shown (g x)))) ->
  forall l eff,
    for_each f xs (State (Some l) eff)
    = (Ret tt, State (Some (l ++ flat_map g xs)) (eff ++ map shown (flat_map g xs))).
Proof.
  induction xs as [|x xs IH]; intros Hf l eff; simpl.
  - unfold ret. now rewrite !app_nil_r.
  - unfold bind. rewrite Hf by now left.
    rewrite IH by (intros; apply Hf; now right).
    now rewrite map_app, !app_assoc.
Qed.

Lemma for_each_shows (msgs : list message) :
  forall session eff,
    for_each (fun msg => chat_write (role msg) (content msg)) msgs (State session eff)
    = (Ret tt, State session (eff ++ map shown msgs)).
Proof.
  induction msgs as [|m msgs IH]; intros session eff; simpl.
  - unfold ret. now rewrite app_nil_r.
  - unfold bind, chat_write, emit; simpl. rewrite IH.
    unfold shown at 2. now rewrite <- app_assoc.
Qed.

Lemma guarded_invoke_run (w : world) h k l eff :
  raise_error w = false \/ well_formed k = true ->
  guarded (raise_error w) (invoke h k) (State (Some l) eff)
  = (Ret tt, State (Some (l ++ option_list (hook_entry h k)))
                   (eff ++ map shown (option_list (hook_entry h k)))).
Proof.
  intros Hk. unfold guarded.
  destruct (hook_entry h k) as [m|] eqn:Hm.
  - now rewrite (invoke_entry _ _ _ _ _ Hm).
  - destruct (invoke_no_entry h k (State (Some l) eff) Hm) as [e ->].
    destruct Hk as [-> | Hwf].
    + simpl. now rewrite !app_nil_r.
    + destruct (well_formed_entry h k Hwf) as [m Hm']. congruence.
Qed.

Lemma dispatch_run (w : world) c l eff :
  raise_error w = false \/ well_formed (snd c) = true ->
  dispatch w c (State (Some l) eff)
  = (Ret tt, State (Some (l ++ call_entries c)) (eff ++ map shown (call_entries c))).
Proof.
  intros Hc. unfold dispatch, call_entries.
  apply (for_each_appends _ (fun h => option_list (hook_entry h (snd c)))).
  intros h l' eff' _. now apply guarded_invoke_run.
Qed.

Lemma calls_run (w : world) cs l eff :
  raise_error w = false \/ forallb (fun c => well_formed (snd c)) cs = true ->
  for_each (dispatch w) cs (State (Some l) eff)
  = (Ret tt, State (Some (l ++ turn_entries cs)) (eff ++ map shown (turn_entries cs))).
Proof.
  intros Hcs. unfold turn_entries. apply for_each_appends.
  intros c l' eff' Hin. apply dispatch_run.
  destruct Hcs as [Hs | Hall]; [now left | right].
  rewrite forallb_forall in Hall. now apply Hall.
Qed.

(** A turn whose crew returns [out] runs to its end, and this is the state
    it leaves. *)
Lemma handle_prompt_run (w : world) prompt l eff out :
  let run := kickoff w (project_crew (pdf_search_tool_str w) prompt) in
  final run = Some out ->
  raise_error w = false \/ forallb (fun c => well_formed (snd c)) (calls run) = true ->
  handle_prompt w prompt (State (Some l) eff)
  = (Ret tt,
     State (Some (l ++ [Message "user" prompt] ++ turn_entries (calls run)
                    ++ [Message "assistant" (result out)]))
           (eff ++ [ChatMessage "user" prompt; Kickoff] ++ map shown (turn_entries (calls run))
                ++ [ChatMessage "assistant" (result out)])).
Proof.
  intros r Hout Hcs. unfold handle_prompt, project_crew_kickoff.
  fold r. unfold bind at 1. unfold append_message at 1. simpl.
  unfold bind at 1. unfold chat_write at 1, emit at 1. simpl.
  unfold bind at 1. unfold bind at 1. unfold emit at 1. simpl.
  unfold bind at 1. rewrite (calls_run w (calls r) _ _ Hcs).
  rewrite Hout. unfold ret at 1. run_monad.
  now rewrite <- !app_assoc.
Qed.

(** ** The log only grows *)

Lemma grows_refl s : grows s s.
Proof. split; [auto | exists []; now rewrite app_nil_r]. Qed.

Lemma grows_trans s1 s2 s3 : grows s1 s2 -> grows s2 s3 -> grows s1 s3.
Proof.
  intros [H12 [a1 E1]] [H23 [a2 E2]]. split; [auto |].
  exists (a1 ++ a2). now rewrite E2, E1, app_assoc.
Qed.

Lemma append_only_ret {A} (a : A) : append_only (ret a).
Proof. intros s. apply grows_refl. Qed.

Lemma append_only_raise {A} e : append_only (@raise A e).
Proof. intros s. apply grows_refl. Qed.

Lemma append_only_stop {A} : append_only (@st_stop A).
Proof. intros s. apply grows_refl. Qed.

Lemma append_only_emit e : append_only (emit e).
Proof. intros s. split; [auto | exists []; now rewrite app_nil_r]. Qed.

Lemma append_only_chat_write name body : append_only (chat_write name body).
Proof. apply append_only_emit. Qed.

Lemma append_only_get_messages : append_only get_messages.
Proof. intros s. unfold get_messages. destruct (messages s); apply grows_refl. Qed.

Lemma append_only_getitem d k : append_only (getitem d k).
Proof. intros s. unfold getitem. destruct (d !! k); apply grows_refl. Qed.

Lemma append_only_append_message m : append_only (append_message m).
Proof.
  intros s. unfold append_message.
  destruct (messages s) as [l|] eqn:Hl; [| apply grows_refl].
  split; [simpl; eauto |]. exists [m]. unfold log. now rewrite Hl.
Qed.

Lemma append_only_init_messages : append_only init_messages.
Proof.
  intros s. unfold init_messages.
  destruct (messages s) as [l|] eqn:Hl; [apply grows_refl |].
  split; [simpl; eauto |]. exists [greeting]. unfold log. now rewrite Hl.
Qed.

Lemma append_only_bind {A B} (m : M A) (k : A -> M B) :
  append_only m -> (forall a, append_only (k a)) -> append_only (bind m k).
Proof.
  intros Hm Hk s. unfold bind. specialize (Hm s).
  destruct (m s) as [[a| |e] s']; simpl in *; auto.
  eapply grows_trans; [exact Hm | apply Hk].
Qed.

Lemma append_only_guarded b m : append_only m -> append_only (guarded b m).
Proof.
  intros Hm s. unfold guarded. specialize (Hm s).
  destruct (m s) as [[a| |e] s']; simpl in *; auto.
  now destruct b.
Qed.

Lemma append_only_for_each {A} (f : A -> M unit) xs :
  (forall x, append_only (f x)) -> append_only (for_each f xs).
Proof.
  intros Hf. induction xs as [|x xs IH]; simpl.
  - apply append_only_ret.
  - apply append_only_bind; auto.
Qed.

Create HintDb log_db.
#[local] Hint Resolve append_only_ret append_only_raise append_only_stop append_only_emit
  append_only_chat_write append_only_get_messages append_only_getitem
  append_only_append_message append_only_init_messages append_only_guarded : log_db.

Ltac append_only_steps :=
  repeat match goal with
    | |- append_only (bind _ _) => apply append_only_bind; [| intros ?]
    | |- append_only (for_each _ _) => apply append_only_for_each; intros ?
    | |- append_only _ => solve [auto with log_db]
    end.

Lemma append_only_invoke h k : append_only (invoke h k).
Proof.
  destruct k; simpl; unfold on_chain_start, on_chain_end; append_only_steps.
Qed.

Lemma append_only_dispatch w c : append_only (dispatch w c).
Proof.
  unfold dispatch. apply append_only_for_each. intros h.
  apply append_only_guarded, append_only_invoke.
Qed.

Lemma append_only_kickoff w crew : append_only (project_crew_kickoff w crew).
Proof.
  unfold project_crew_kickoff. append_only_steps.
  - apply append_only_dispatch.
  - destruct (final _); auto with log_db.
Qed.

Lemma append_only_handle_prompt w prompt : append_only (handle_prompt w prompt).
Proof.
  unfold handle_prompt. append_only_steps. apply append_only_kickoff.
Qed.

Lemma append_only_app w : append_only (app w).
Proof.
  unfold app. append_only_steps.
  - destruct (negb _); auto with log_db.
  - destruct (chat_input w) as [prompt|]; [| auto with log_db].
    destruct (truthy prompt); [apply append_only_handle_prompt | auto with log_db].
Qed.

Lemma append_only_main w : append_only (main w).
Proof.
  unfold main. append_only_steps.
  - unfold load_key. destruct (load_dotenv w); [auto with log_db |].
    destruct (secrets w) as [file|]; [| auto with log_db].
    destruct (file !! _); auto with log_db.
  - unfold construct. destruct (OpenAI_accepts w _); [| auto with log_db].
    destruct (setup_ok w); auto with log_db.
  - apply append_only_app.
Qed.

(** ** Strings of the result *)

Lemma length_append (s1 s2 : string) :
  String.length (s1 +:+ s2) = String.length s1 + String.length s2.
Proof. induction s1 as [|c s1 IH]; simpl; [reflexivity | now rewrite IH]. Qed.

Lemma result_header out : result out = header +:+ " " +:+ out.
Proof. reflexivity. Qed.

Lemma result_longer out : result out <> out.
Proof.
  intros E. apply (f_equal String.length) in E.
  unfold result in E. rewrite length_append in E. simpl in E. lia.
Qed.

Lemma result_not_fallback out : result out <> fallback.
Proof. unfold result, fallback. simpl. discriminate. Qed.

Lemma visible_answer_snoc session eff name body :
  visible_answer (State session (eff ++ [ChatMessage name body])) = Some body.
Proof.
  unfold visible_answer. simpl. rewrite omap_app. simpl. apply last_snoc.
Qed.

(** ** Start-up *)

Lemma load_key_run w s :
  load_key w s =
    match credential w with
    | Some k => (Ret (Some k), s)
    | None =>
        if load_dotenv w then (Ret None, s)
        else (Raised match secrets w with
                     | Some _ => KeyError "OPENAI_API_KEY"
                     | None => StreamlitSecretNotFoundError
                     end, s)
    end.
Proof.
  unfold load_key, credential. destruct (load_dotenv w).
  - now destruct (environ w !! _).
  - destruct (secrets w) as [file|]; [| reflexivity]. now destruct (file !! _).
Qed.

(** With the gate closed the page stops after its configuration and title. *)
Lemma app_gate_closed w s :
  check_password w = false ->
  app w s = (Stopped, State (messages s)
     (effects s ++
      [SetPageConfig "centered" "My Streamlit App";
       Title "Dear Citizen, Welcome to your MediShield Life and MediSave's Info Buddy!"])).
Proof.
  intros Hpw. unfold app. run_monad. rewrite Hpw. simpl.
  now rewrite <- app_assoc.
Qed.

(** The script with the gate closed: either start-up raises with nothing
    drawn, or the page has its configuration and title and stops. *)
Lemma main_gate_closed w session :
  check_password w = false ->
  run w session = (Stopped, State session
     [SetPageConfig "centered" "My Streamlit App";
      Title "Dear Citizen, Welcome to your MediShield Life and MediSave's Info Buddy!"])
  \/ exists e, run w session = (Raised e, State session []).
Proof.
  intros Hpw. unfold run, main, bind. rewrite load_key_run. unfold construct.
  destruct (credential w) as [k|]; [| destruct (load_dotenv w)].
  - destruct (OpenAI_accepts w (Some k)); [| right; eexists; reflexivity].
    destruct (setup_ok w); [| right; eexists; reflexivity].
    left. unfold ret. now rewrite app_gate_closed.
  - destruct (OpenAI_accepts w None); [| right; eexists; reflexivity].
    destruct (setup_ok w); [| right; eexists; reflexivity].
    left. unfold ret. now rewrite app_gate_closed.
  - right; eexists; reflexivity.
Qed.

Lemma main_no_credential w session :
  credential w = None ->
  (load_dotenv w = true -> OpenAI_accepts w None = false) ->
  exists e, run w session = (Raised e, State session []).
Proof.
  intros Hc Hlib. unfold run, main, bind. rewrite load_key_run, Hc.
  destruct (load_dotenv w); [| eexists; reflexivity].
  unfold construct. rewrite Hlib by reflexivity. eexists; reflexivity.
Qed.

(** ** The result shown at the end of a turn *)

Lemma handle_prompt_visible (w : world) prompt l eff out :
  final (kickoff w (project_crew (pdf_search_tool_str w) prompt)) = Some out ->
  raise_error w = false
  \/ forallb (fun c => well_formed (snd c))
       (calls (kickoff w (project_crew (pdf_search_tool_str w) prompt))) = true ->
  visible_answer (snd (handle_prompt w prompt (State (Some l) eff))) = Some (result out).
Proof.
  intros Hout Hcs. rewrite (handle_prompt_run w prompt l eff out Hout Hcs).
  cbv beta iota delta [snd]. rewrite !app_assoc.
  apply visible_answer_snoc.
Qed.

(** C8: at the end of every turn, whatever the crew returned (the no-answer
    sentence included), the last entry of the log and the last message drawn
    are the crew's output behind the fixed header
    "## Thanks for waiting. Here is the information you requested. \n\n"
    (and the blank that separates the two in the f-string), so what the user
    sees is never the crew's output alone. *)
Theorem result_is_output_under_header
    (w : world) (prompt : string) (l : list message) (eff : list effect) (out : string)
    (Hout : final (kickoff w (project_crew (pdf_search_tool_str w) prompt)) = Some out)
    (Hcs : raise_error w = false
           \/ forallb (fun c => well_formed (snd c))
                (calls (kickoff w (project_crew (pdf_search_tool_str w) prompt))) = true) :
  (exists l' eff',
     handle_prompt w prompt (State (Some l) eff)
     = (Ret tt, State (Some (l' ++ [Message "assistant" (result out)]))
                      (eff' ++ [ChatMessage "assistant" (result out)])))
  /\ visible_answer (snd (handle_prompt w prompt (State (Some l) eff)))
     = Some (header +:+ " " +:+ out)
  /\ visible_answer (snd (handle_prompt w prompt (State (Some l) eff))) <> Some out.
Proof.
  split; [| split].
  - rewrite (handle_prompt_run w prompt l eff out Hout Hcs).
    eexists (l ++ [Message "user" prompt] ++ turn_entries _),
            (eff ++ [ChatMessage "user" prompt; Kickoff] ++ map shown (turn_entries _)).
    now rewrite <- !app_assoc.
  - rewrite (handle_prompt_visible w prompt l eff out Hout Hcs).
    now rewrite result_header.
  - rewrite (handle_prompt_visible w prompt l eff out Hout Hcs).
    intros E. inversion E as [E']. now apply (result_longer out).
Qed.

Lemma result_is_output_under_header_witness :
  final (kickoff (world_with_key true (Some "hello") run_researcher)
           (project_crew "PDFSearchTool" "hello"))
  = Some "Fellow Citizen, thank you for your enquiry. MediSave can be used for renal dialysis."
  /\ visible_answer
       (snd (handle_prompt (world_with_key true (Some "hello") run_researcher) "hello"
               (State (Some [greeting]) [])))
     = Some (header +:+ " " +:+
             "Fellow Citizen, thank you for your enquiry. MediSave can be used for renal dialysis.").
Proof.
  split; [reflexivity |].
  apply (result_is_output_under_header
           (world_with_key true (Some "hello") run_researcher) "hello" [greeting] []
           "Fellow Citizen, thank you for your enquiry. MediSave can be used for renal dialysis.");
    [reflexivity | left; reflexivity].
Defined.

(** C3, as the script has it: in every turn whose crew returns the
    no-answer sentence, what the user finally sees is the fixed header, a
    blank, and then that exact sentence with nothing after it; whatever the
    crew returns, it is never the sentence alone. *)
Theorem no_answer_is_shown_under_header
    (w : world) (prompt : string) (l : list message) (eff : list effect)
    (Hout : final (kickoff w (project_crew (pdf_search_tool_str w) prompt)) = Some fallback)
    (Hcs : raise_error w = false
           \/ forallb (fun c => well_formed (snd c))
                (calls (kickoff w (project_crew (pdf_search_tool_str w) prompt))) = true) :
  visible_answer (snd (handle_prompt w prompt (State (Some l) eff)))
  = Some (header +:+ " " +:+ fallback)
  /\ forall out, result out <> fallback.
Proof.
  split.
  - now rewrite (handle_prompt_visible w prompt l eff fallback Hout Hcs).
  - apply result_not_fallback.
Qed.

Lemma no_answer_is_shown_under_header_witness :
  final (kickoff (world_with_key true (Some "hello") run_no_findings)
           (project_crew "PDFSearchTool" "hello")) = Some fallback
  /\ visible_answer
       (snd (handle_prompt (world_with_key true (Some "hello") run_no_findings) "hello"
               (State (Some [greeting]) [])))
     = Some (header +:+ " " +:+ fallback).
Proof.
  split; [reflexivity |].
  apply (no_answer_is_shown_under_header
           (world_with_key true (Some "hello") run_no_findings) "hello" [greeting] []);
    [reflexivity | left; reflexivity].
Defined.

(** C3 as stated fails: a fresh session, the prompt "hello", no search agent
    reporting anything and the crew returning exactly the no-answer sentence;
    the answer on the page is not that sentence. *)
Lemma no_answer_not_byte_for_byte :
  visible_answer (snd (run (world_with_key true (Some "hello") run_no_findings) None))
  <> Some fallback.
Proof. vm_compute. discriminate. Qed.

(** ** The handlers' roles *)

Lemma handlers_of_single (m : member) :
  exists h, handlers_of m = [h] /\ agent_name h <> "assistant".
Proof. destruct m; eexists; (split; [reflexivity | discriminate]). Qed.

(** C9: in a running crew a Start event is logged and drawn under the fixed
    role "assistant", whichever member emitted it, and an End event under the
    name the member's handler is registered with, which is never
    "assistant".  An Action event is not recorded at all: the body of
    [on_agent_action] would log it under "assistant", but the framework's
    call passes the action alone to a method declared with [serialized] and
    [inputs], so it raises [TypeError] before the body; with the exception
    swallowed the log and the page stay as they were. *)
Theorem action_events_are_not_recorded
    (w : world) (m : member) (a : AgentAction) (serialized d_in d_out : dict)
    (c_in c_out : string) (l : list message) (eff : list effect)
    (Hin : d_in !! "input" = Some c_in)
    (Hout : d_out !! "output" = Some c_out) :
  dispatch w (m, chain_start serialized d_in) (State (Some l) eff)
  = (Ret tt, State (Some (l ++ [Message "assistant" c_in]))
                   (eff ++ [ChatMessage "assistant" c_in]))
  /\ (exists h,
        handlers_of m = [h] /\ agent_name h <> "assistant"
        /\ dispatch w (m, chain_end d_out) (State (Some l) eff)
           = (Ret tt, State (Some (l ++ [Message (agent_name h) c_out]))
                            (eff ++ [ChatMessage (agent_name h) c_out])))
  /\ dispatch w (m, agent_action a) (State (Some l) eff)
     = (if raise_error w
        then Raised (TypeError "on_agent_action() missing 1 required positional argument: 'inputs'")
        else Ret tt,
        State (Some l) eff)
  /\ (forall h,
        on_agent_action h serialized d_in (State (Some l) eff)
        = (Ret tt, State (Some (l ++ [Message "assistant" c_in]))
                         (eff ++ [ChatMessage "assistant" c_in]))).
Proof.
  destruct (handlers_of_single m) as [h [Hh Hname]].
  split; [| split; [| split]].
  - unfold dispatch. simpl fst. simpl snd. rewrite Hh. simpl.
    unfold bind, guarded. simpl invoke. rewrite (on_chain_start_run h _ _ l eff c_in Hin).
    reflexivity.
  - exists h. split; [exact Hh | split; [exact Hname |]].
    unfold dispatch. simpl fst. simpl snd. rewrite Hh. simpl.
    unfold bind, guarded. simpl invoke. rewrite (on_chain_end_run h _ l eff c_out Hout).
    reflexivity.
  - unfold dispatch. simpl fst. simpl snd. rewrite Hh. simpl.
    unfold bind, guarded, raise. simpl invoke. now destruct (raise_error w).
  - intros h'. now apply on_agent_action_run.
Qed.

Lemma action_events_are_not_recorded_witness :
  ({[ "input" := "Can I use MediSave for dialysis?" ]} : dict) !! "input"
  = Some "Can I use MediSave for dialysis?"
  /\ ({[ "output" := "MediSave can be used for renal dialysis." ]} : dict) !! "output"
     = Some "MediSave can be used for renal dialysis."
  /\ dispatch (world_with_key true (Some "Can I use MediSave for dialysis?") run_researcher)
       (Researcher,
        agent_action {| action_tool := "Read website content";
                        action_tool_input := "{}";
                        action_log := "I should read the MediSave pages." |})
       (State (Some [greeting]) [])
     = (if raise_error (world_with_key true (Some "Can I use MediSave for dialysis?")
                          run_researcher)
        then Raised (TypeError "on_agent_action() missing 1 required positional argument: 'inputs'")
        else Ret tt,
        State (Some [greeting]) []).
Proof.
  split; [reflexivity | split; [reflexivity |]].
  apply (action_events_are_not_recorded
           (world_with_key true (Some "Can I use MediSave for dialysis?") run_researcher)
           Researcher
           {| action_tool := "Read website content";
              action_tool_input := "{}";
              action_log := "I should read the MediSave pages." |}
           empty
           {[ "input" := "Can I use MediSave for dialysis?" ]}
           {[ "output" := "MediSave can be used for renal dialysis." ]}
           "Can I use MediSave for dialysis?" "MediSave can be used for renal dialysis."
           [greeting] []); reflexivity.
Defined.

(** ** The log *)

(** C6, as the script has it: the log is append-only (every execution of the
    script leaves the log it found as a prefix of the log it leaves), and a
    turn appends to it three times over: the script adds the user's prompt
    before the crew starts, every handler callback adds its entry while the
    crew is running, and the script adds the result after the crew has
    returned. *)
Theorem log_is_append_only
    (w : world) (prompt : string) (l : list message) (eff : list effect) (out : string)
    (Hout : final (kickoff w (project_crew (pdf_search_tool_str w) prompt)) = Some out)
    (Hcs : raise_error w = false
           \/ forallb (fun c => well_formed (snd c))
                (calls (kickoff w (project_crew (pdf_search_tool_str w) prompt))) = true) :
  (forall w' l0, exists added, messages (snd (run w' (Some l0))) = Some (l0 ++ added))
  /\ messages (snd (handle_prompt w prompt (State (Some l) eff)))
     = Some (l ++ [Message "user" prompt]
               ++ turn_entries (calls (kickoff w (project_crew (pdf_search_tool_str w) prompt)))
               ++ [Message "assistant" (result out)]).
Proof.
  split.
  - intros w' l0. destruct (append_only_main w' (State (Some l0) [])) as [Hsome [added Hlog]].
    fold (run w' (Some l0)) in Hsome, Hlog. simpl in Hsome.
    destruct Hsome as [l1 Hl1]; [eauto |].
    exists added. unfold log in Hlog. rewrite Hl1 in Hlog. simpl in Hlog.
    now rewrite Hl1, Hlog.
  - now rewrite (handle_prompt_run w prompt l eff out Hout Hcs).
Qed.

Lemma log_is_append_only_witness :
  final (kickoff (world_with_key true (Some "Can I use MediSave for dialysis?") run_researcher)
           (project_crew "PDFSearchTool" "Can I use MediSave for dialysis?"))
  = Some "Fellow Citizen, thank you for your enquiry. MediSave can be used for renal dialysis."
  /\ messages
       (snd (handle_prompt
               (world_with_key true (Some "Can I use MediSave for dialysis?") run_researcher)
               "Can I use MediSave for dialysis?" (State (Some [greeting]) [])))
     = Some ([greeting] ++ [Message "user" "Can I use MediSave for dialysis?"]
               ++ turn_entries (calls run_researcher)
               ++ [Message "assistant"
                     (result "Fellow Citizen, thank you for your enquiry. MediSave can be used for renal dialysis.")]).
Proof.
  split; [reflexivity |].
  apply (log_is_append_only
           (world_with_key true (Some "Can I use MediSave for dialysis?") run_researcher)
           "Can I use MediSave for dialysis?" [greeting] []
           "Fellow Citizen, thank you for your enquiry. MediSave can be used for renal dialysis.");
    [reflexivity | left; reflexivity].
Defined.

(** C6 as stated fails: in a fresh session, with the crew run in which the
    manager starts and the researcher searches and reports, the callbacks of
    the running crew change the log, and the log the script leaves holds
    the entries of the start and of the end between the prompt and the
    result. *)
Lemma agents_append_mid_turn :
  messages
    (snd (for_each
            (dispatch (world_with_key true (Some "Can I use MediSave for dialysis?") run_researcher))
            (calls run_researcher)
            (State (Some [greeting; Message "user" "Can I use MediSave for dialysis?"]) [])))
  <> Some [greeting; Message "user" "Can I use MediSave for dialysis?"]
  /\ log (snd (run (world_with_key true (Some "Can I use MediSave for dialysis?") run_researcher)
                 None))
     = [ greeting;
         Message "user" "Can I use MediSave for dialysis?";
         Message "assistant" "Can I use MediSave for dialysis?";
         Message "Medisave Researcher" "MediSave can be used for renal dialysis.";
         Message "assistant"
           (result "Fellow Citizen, thank you for your enquiry. MediSave can be used for renal dialysis.") ].
Proof.
  split.
  - vm_compute. discriminate.
  - vm_compute. reflexivity.
Qed.

(** ** Start-up and the password gate *)

(** C7: when no credential is configured ([os.getenv] gives [None] after a
    [.env] was loaded, or the secret is missing otherwise) the script raises
    during start-up, before anything is drawn and before the chat input; so
    an execution that reaches the chat input or the crew has a credential.
    Without a [.env] the script raises by itself, at [st.secrets[...]]; with
    one, [Hlib] is the client library's rule that a missing key is refused. *)
Theorem missing_credential_is_fatal
    (w : world) (session : option (list message))
    (Hlib : load_dotenv w = true -> OpenAI_accepts w None = false) :
  (credential w = None -> exists e, run w session = (Raised e, State session []))
  /\ (In ChatInput (effects (snd (run w session)))
      \/ In Kickoff (effects (snd (run w session))) ->
      exists k, credential w = Some k).
Proof.
  split.
  - intros Hc. now apply main_no_credential.
  - intros Hreached. destruct (credential w) as [k|] eqn:Hc; [eauto |].
    destruct (main_no_credential w session Hc Hlib) as [e He].
    rewrite He in Hreached. simpl in Hreached. tauto.
Qed.

Lemma missing_credential_is_fatal_witness :
  (load_dotenv world_without_key = true -> OpenAI_accepts world_without_key None = false)
  /\ credential world_without_key = None
  /\ exists e, run world_without_key None = (Raised e, State None []).
Proof.
  split; [intros _; reflexivity |]. split; [reflexivity |].
  apply (missing_credential_is_fatal world_without_key None); [intros _ |]; reflexivity.
Defined.

(** Without a [.env] and without a secrets file, the lookup itself raises. *)
Example missing_secret_raises :
  run world_without_secret None = (Raised StreamlitSecretNotFoundError, State None []).
Proof. reflexivity. Qed.

(** With a credential and the gate open the chat input, and then the crew,
    are reached. *)
Example chat_input_reached :
  In ChatInput (effects (snd (run (world_with_key true (Some "hello") run_no_findings) None)))
  /\ In Kickoff (effects (snd (run (world_with_key true (Some "hello") run_no_findings) None))).
Proof. vm_compute. tauto. Qed.

(** C10: when [check_password()] is false the script never returns normally:
    it stops right after the title (or had already raised during start-up),
    so the chat input is not drawn, no prompt is taken, the crew is not
    started, no message is drawn and the log is left as it was. *)
Theorem password_gate_closed
    (w : world) (session : option (list message))
    (Hpw : check_password w = false) :
  (fst (run w session) = Stopped \/ exists e, fst (run w session) = Raised e)
  /\ ~ In ChatInput (effects (snd (run w session)))
  /\ ~ In Kickoff (effects (snd (run w session)))
  /\ (forall name body, ~ In (ChatMessage name body) (effects (snd (run w session))))
  /\ messages (snd (run w session)) = session.
Proof.
  destruct (main_gate_closed w session Hpw) as [-> | [e ->]]; simpl.
  - split; [now left |]. split; [| split; [| split; [| reflexivity]]].
    + intros [H | [H | []]]; discriminate.
    + intros [H | [H | []]]; discriminate.
    + intros name body [H | [H | []]]; discriminate.
  - split; [right; eauto |]. split; [| split; [| split; [| reflexivity]]]; auto.
Qed.

Lemma password_gate_closed_witness :
  check_password (world_with_key false (Some "hello") run_researcher) = false
  /\ (fst (run (world_with_key false (Some "hello") run_researcher) (Some [greeting])) = Stopped
      \/ exists e,
           fst (run (world_with_key false (Some "hello") run_researcher) (Some [greeting]))
           = Raised e)
  /\ ~ In ChatInput
         (effects (snd (run (world_with_key false (Some "hello") run_researcher) (Some [greeting]))))
  /\ ~ In Kickoff
         (effects (snd (run (world_with_key false (Some "hello") run_researcher) (Some [greeting]))))
  /\ (forall name body,
        ~ In (ChatMessage name body)
            (effects (snd (run (world_with_key false (Some "hello") run_researcher)
                             (Some [greeting])))))
  /\ messages (snd (run (world_with_key false (Some "hello") run_researcher) (Some [greeting])))
     = Some [greeting].
Proof.
  split; [reflexivity |].
  apply (password_gate_closed (world_with_key false (Some "hello") run_researcher)
           (Some [greeting])).
  reflexivity.
Defined.

(** ** What the script leaves to the crew *)

(** Whatever the prompt, the crew is built with the same three tasks, in the
    same order and bound to the same agents, under the hierarchical process:
    the script itself has no branch on what an agent found. *)
Lemma project_crew_shape (tool_str prompt : string) :
  map agent (tasks (project_crew tool_str prompt))
  = [information_retrieval_agent; researcher; customer_service_agent]
  /\ process (project_crew tool_str prompt) = hierarchical
  /\ description (nth 2 (tasks (project_crew tool_str prompt)) task_customer_service_agent)
     = description task_customer_service_agent.
Proof. repeat split. Qed.

(** The script handles any sequence of callbacks the running crew makes, in
    any order and from any member: each one that finds its key is logged. *)
Lemma callbacks_are_logged_in_order (w : world) (cs : list (member * hook)) l eff :
  raise_error w = false ->
  log (snd (for_each (dispatch w) cs (State (Some l) eff))) = l ++ turn_entries cs.
Proof. intros Hs. rewrite calls_run by now left. reflexivity. Qed.

(** ** Whole executions *)

Lemma run_starts w session :
  starts_up w = true -> run w session = app w (State session []).
Proof.
  unfold starts_up, run, main, bind. rewrite load_key_run. unfold construct.
  destruct (credential w) as [k|].
  - destruct (OpenAI_accepts w (Some k)); [| discriminate].
    destruct (setup_ok w); [reflexivity | discriminate].
  - destruct (load_dotenv w); [| discriminate].
    destruct (OpenAI_accepts w None); [| discriminate].
    destruct (setup_ok w); [reflexivity | discriminate].
Qed.

Lemma run_fails_to_start w session :
  starts_up w = false -> exists e, run w session = (Raised e, State session []).
Proof.
  unfold starts_up, run, main, bind. rewrite load_key_run. unfold construct.
  destruct (credential w) as [k|].
  - destruct (OpenAI_accepts w (Some k)); [| eexists; reflexivity].
    destruct (setup_ok w); [discriminate | eexists; reflexivity].
  - destruct (load_dotenv w); [| eexists; reflexivity].
    destruct (OpenAI_accepts w None); [| eexists; reflexivity].
    destruct (setup_ok w); [discriminate | eexists; reflexivity].
Qed.

(** With the gate open the page is drawn down to the chat history, from the
    session's log or from the greeting, and goes on to the chat input. *)
Lemma app_gate_open w s :
  check_password w = true ->
  app w s
  = prompt_and_disclaimer w
      (State (Some (opening_log (messages s)))
             (effects s ++ page_top (opening_log (messages s)))).
Proof.
  intros Hpw. unfold app. unfold bind at 1. unfold emit at 1.
  unfold bind at 1. unfold emit at 1. unfold bind at 1. rewrite Hpw.
  cbn [negb ret snd fst messages effects].
  unfold bind at 1. unfold init_messages at 1. cbn [messages effects].
  destruct s as [[l|] eff]; cbn [messages effects opening_log default];
    unfold bind at 1; unfold get_messages at 1; cbn [messages effects];
    unfold bind at 1; rewrite for_each_shows;
    unfold page_top; rewrite <- !app_assoc; reflexivity.
Qed.

Lemma run_gate_open w session :
  starts_up w = true -> check_password w = true ->
  run w session
  = prompt_and_disclaimer w
      (State (Some (opening_log session)) (page_top (opening_log session))).
Proof.
  intros Hs Hpw. rewrite (run_starts w session Hs).
  now rewrite (app_gate_open w _ Hpw).
Qed.

Lemma prompt_and_disclaimer_idle w s :
  submitted w = None ->
  prompt_and_disclaimer w s
  = (Ret tt, State (messages s)
                   (effects s ++ [ChatInput; Expander "Disclaimer" disclaimer])).
Proof.
  intros Hsub. unfold prompt_and_disclaimer, bind, emit. cbn [messages effects].
  assert (Hskip : forall s0,
            match chat_input w with
            | Some prompt => if truthy prompt then handle_prompt w prompt else ret tt
            | None => ret tt
            end s0 = (Ret tt, s0)).
  { intros s0. unfold submitted in Hsub. destruct (chat_input w) as [p|]; [| reflexivity].
    destruct (truthy p); [discriminate | reflexivity]. }
  rewrite Hskip. cbn [messages effects]. now rewrite <- app_assoc.
Qed.

Lemma prompt_and_disclaimer_turn w prompt s :
  submitted w = Some prompt ->
  prompt_and_disclaimer w s
  = match handle_prompt w prompt (State (messages s) (effects s ++ [ChatInput])) with
    | (Ret _, s') =>
        (Ret tt, State (messages s') (effects s' ++ [Expander "Disclaimer" disclaimer]))
    | (Stopped, s') => (Stopped, s')
    | (Raised e, s') => (Raised e, s')
    end.
Proof.
  intros Hsub. unfold prompt_and_disclaimer. unfold bind at 1. unfold emit at 1.
  unfold bind at 1.
  assert (Hin : match chat_input w with
                | Some p => if truthy p then handle_prompt w p else ret tt
                | None => ret tt
                end = handle_prompt w prompt).
  { unfold submitted in Hsub. destruct (chat_input w) as [p|]; [| discriminate].
    destruct (truthy p); [now inversion Hsub | discriminate]. }
  rewrite Hin. destruct (handle_prompt w prompt _) as [[[]| |e] s']; reflexivity.
Qed.

(** A turn whose crew raises: the state it leaves. *)
Lemma handle_prompt_raises (w : world) prompt l eff :
  let run := kickoff w (project_crew (pdf_search_tool_str w) prompt) in
  final run = None ->
  raise_error w = false \/ forallb (fun c => well_formed (snd c)) (calls run) = true ->
  handle_prompt w prompt (State (Some l) eff)
  = (Raised (ExternalError "kickoff"),
     State (Some (l ++ [Message "user" prompt] ++ turn_entries (calls run)))
           (eff ++ [ChatMessage "user" prompt; Kickoff] ++ map shown (turn_entries (calls run)))).
Proof.
  intros r Hout Hcs. unfold handle_prompt, project_crew_kickoff.
  fold r. unfold bind at 1. unfold append_message at 1. simpl.
  unfold bind at 1. unfold chat_write at 1, emit at 1. simpl.
  unfold bind at 1. unfold bind at 1. unfold emit at 1. simpl.
  unfold bind at 1. rewrite (calls_run w (calls r) _ _ Hcs).
  rewrite Hout. unfold raise.
  now rewrite <- !app_assoc.
Qed.

Lemma run_completed (w : world) (session : option (list message)) (prompt out : string) :
  completes w prompt out ->
  run w session
  = (Ret tt,
     State (Some (opening_log session ++ turn_log w prompt out))
           (page_top (opening_log session)
              ++ [ChatInput; ChatMessage "user" prompt; Kickoff]
              ++ map shown
                   (turn_entries (calls (kickoff w (project_crew (pdf_search_tool_str w) prompt))))
              ++ [ChatMessage "assistant" (result out); Expander "Disclaimer" disclaimer])).
Proof.
  intros (Hs & Hpw & Hsub & Hout & Hcs).
  rewrite (run_gate_open w session Hs Hpw).
  rewrite (prompt_and_disclaimer_turn w prompt _ Hsub). cbn [messages effects].
  rewrite (handle_prompt_run w prompt _ _ out Hout Hcs). cbn [messages effects].
  unfold turn_log. now rewrite <- !app_assoc.
Qed.

(** X1: an execution that starts up, passes the gate, takes a prompt and whose
    crew returns: the page is drawn from the log it found (the greeting in a
    fresh session), the prompt is logged and drawn as typed, then every
    callback's entry, then the result, and the disclaimer closes the page. *)
Theorem completed_turn
    (w : world) (session : option (list message)) (prompt out : string)
    (Hs : starts_up w = true) (Hpw : check_password w = true)
    (Hsub : submitted w = Some prompt)
    (Hout : final (kickoff w (project_crew (pdf_search_tool_str w) prompt)) = Some out)
    (Hcs : raise_error w = false
           \/ forallb (fun c => well_formed (snd c))
                (calls (kickoff w (project_crew (pdf_search_tool_str w) prompt))) = true) :
  run w session
  = (Ret tt,
     State (Some (opening_log session ++ [Message "user" prompt]
                    ++ turn_entries (calls (kickoff w (project_crew (pdf_search_tool_str w) prompt)))
                    ++ [Message "assistant" (result out)]))
           (page_top (opening_log session)
              ++ [ChatInput; ChatMessage "user" prompt; Kickoff]
              ++ map shown
                   (turn_entries (calls (kickoff w (project_crew (pdf_search_tool_str w) prompt))))
              ++ [ChatMessage "assistant" (result out); Expander "Disclaimer" disclaimer])).
Proof.
  rewrite (run_completed w session prompt out) by (repeat split; assumption).
  reflexivity.
Qed.

Lemma completed_turn_witness :
  starts_up (world_with_key true (Some "Can I use MediSave for dialysis?") run_researcher) = true
  /\ submitted (world_with_key true (Some "Can I use MediSave for dialysis?") run_researcher)
     = Some "Can I use MediSave for dialysis?"
  /\ run (world_with_key true (Some "Can I use MediSave for dialysis?") run_researcher) None
     = (Ret tt,
        State (Some (opening_log None ++ [Message "user" "Can I use MediSave for dialysis?"]
                       ++ turn_entries (calls run_researcher)
                       ++ [Message "assistant"
                             (result "Fellow Citizen, thank you for your enquiry. MediSave can be used for renal dialysis.")]))
              (page_top (opening_log None)
                 ++ [ChatInput; ChatMessage "user" "Can I use MediSave for dialysis?"; Kickoff]
                 ++ map shown (turn_entries (calls run_researcher))
                 ++ [ChatMessage "assistant"
                       (result "Fellow Citizen, thank you for your enquiry. MediSave can be used for renal dialysis.");
                     Expander "Disclaimer" disclaimer])).
Proof.
  split; [reflexivity | split; [reflexivity |]].
  apply (completed_turn
           (world_with_key true (Some "Can I use MediSave for dialysis?") run_researcher)
           None "Can I use MediSave for dialysis?"
           "Fellow Citizen, thank you for your enquiry. MediSave can be used for renal dialysis.");
    [reflexivity | reflexivity | reflexivity | reflexivity | left; reflexivity].
Defined.

(** X2: an execution with no prompt, or with the empty one: the crew is not
    started and the log is only drawn (a fresh session gets the greeting), so
    running the script again on the session it leaves changes nothing. *)
Theorem idle_run_only_draws
    (w : world) (session : option (list message))
    (Hs : starts_up w = true) (Hpw : check_password w = true)
    (Hsub : submitted w = None) :
  run w session
  = (Ret tt,
     State (Some (opening_log session))
           (page_top (opening_log session) ++ [ChatInput; Expander "Disclaimer" disclaimer]))
  /\ run w (messages (snd (run w session))) = run w session.
Proof.
  assert (Hrun : forall ses,
    run w ses
    = (Ret tt,
       State (Some (opening_log ses))
             (page_top (opening_log ses) ++ [ChatInput; Expander "Disclaimer" disclaimer]))).
  { intros ses. rewrite (run_gate_open w ses Hs Hpw).
    now rewrite (prompt_and_disclaimer_idle w _ Hsub). }
  split; [apply Hrun |].
  rewrite (Hrun session). cbn [snd messages]. now rewrite Hrun.
Qed.

Lemma idle_run_only_draws_witness :
  starts_up (world_with_key true (Some "") run_researcher) = true
  /\ submitted (world_with_key true (Some "") run_researcher) = None
  /\ run (world_with_key true (Some "") run_researcher) None
     = (Ret tt,
        State (Some (opening_log None))
              (page_top (opening_log None) ++ [ChatInput; Expander "Disclaimer" disclaimer])).
Proof.
  split; [reflexivity | split; [reflexivity |]].
  apply (idle_run_only_draws (world_with_key true (Some "") run_researcher) None);
    reflexivity.
Defined.

(** X3: an execution whose crew raises: the script has no handler for it, so it
    ends with that exception; the prompt and the callbacks' entries made so
    far stay in the log and on the page, no result is logged and the
    disclaimer is not drawn. *)
Theorem failed_kickoff_leaves_prompt_unanswered
    (w : world) (session : option (list message)) (prompt : string)
    (Hs : starts_up w = true) (Hpw : check_password w = true)
    (Hsub : submitted w = Some prompt)
    (Hout : final (kickoff w (project_crew (pdf_search_tool_str w) prompt)) = None)
    (Hcs : raise_error w = false
           \/ forallb (fun c => well_formed (snd c))
                (calls (kickoff w (project_crew (pdf_search_tool_str w) prompt))) = true) :
  run w session
  = (Raised (ExternalError "kickoff"),
     State (Some (opening_log session ++ [Message "user" prompt]
                    ++ turn_entries (calls (kickoff w (project_crew (pdf_search_tool_str w) prompt)))))
           (page_top (opening_log session)
              ++ [ChatInput; ChatMessage "user" prompt; Kickoff]
              ++ map shown
                   (turn_entries (calls (kickoff w (project_crew (pdf_search_tool_str w) prompt)))))).
Proof.
  rewrite (run_gate_open w session Hs Hpw).
  rewrite (prompt_and_disclaimer_turn w prompt _ Hsub). cbn [messages effects].
  rewrite (handle_prompt_raises w prompt _ _ Hout Hcs).
  now rewrite <- !app_assoc.
Qed.

Lemma failed_kickoff_leaves_prompt_unanswered_witness :
  starts_up (world_with_key true (Some "What is the claim limit?") run_crashed) = true
  /\ final (kickoff (world_with_key true (Some "What is the claim limit?") run_crashed)
              (project_crew "PDFSearchTool" "What is the claim limit?")) = None
  /\ run (world_with_key true (Some "What is the claim limit?") run_crashed) None
     = (Raised (ExternalError "kickoff"),
        State (Some (opening_log None ++ [Message "user" "What is the claim limit?"]
                       ++ turn_entries (calls run_crashed)))
              (page_top (opening_log None)
                 ++ [ChatInput; ChatMessage "user" "What is the claim limit?"; Kickoff]
                 ++ map shown (turn_entries (calls run_crashed)))).
Proof.
  split; [reflexivity | split; [reflexivity |]].
  apply (failed_kickoff_leaves_prompt_unanswered
           (world_with_key true (Some "What is the claim limit?") run_crashed)
           None "What is the claim limit?");
    [reflexivity | reflexivity | reflexivity | reflexivity | left; reflexivity].
Defined.

(** ** Invariants of the part of the script that writes to the log *)

(** A callback either raises and changes nothing, or appends its entry and
    draws it. *)
Lemma invoke_cases h k s :
  (exists e, invoke h k s = (Raised e, s))
  \/ exists l m,
       messages s = Some l /\ hook_entry h k = Some m
       /\ invoke h k s = (Ret tt, State (Some (l ++ [m])) (effects s ++ [shown m])).
Proof.
  destruct (hook_entry h k) as [m|] eqn:Hm.
  - destruct s as [[l|] eff].
    + right. exists l, m. repeat split. now apply invoke_entry.
    + left. destruct k; simpl; run_monad; eauto.
  - left. now apply invoke_no_entry.
Qed.

Lemma bind_assoc {A B C} (m : M A) (k : A -> M B) (k' : B -> M C) s :
  bind (bind m k) k' s = bind m (fun a => bind (k a) k') s.
Proof. unfold bind. destruct (m s) as [[a| |e] s']; reflexivity. Qed.

Lemma handle_prompt_posts w prompt s :
  handle_prompt w prompt s
  = (do! post (Message "user" prompt) in
     let! final := project_crew_kickoff w (project_crew (pdf_search_tool_str w) prompt) in
     post (Message "assistant" (result final))) s.
Proof. unfold post. rewrite bind_assoc. reflexivity. Qed.

Section Invariant.

Variable P : state -> Prop.
Variable allowed : message -> Prop.

Hypothesis P_quiet :
  forall s e, chat_entry e = None -> P s -> P (State (messages s) (effects s ++ [e])).
Hypothesis P_post :
  forall l eff m, allowed m -> P (State (Some l) eff) ->
                  P (State (Some (l ++ [m])) (eff ++ [shown m])).
Hypothesis allowed_user : forall c, allowed (Message "user" c).
Hypothesis allowed_assistant : forall c, allowed (Message "assistant" c).
Hypothesis allowed_agent :
  forall mem h c, In h (handlers_of mem) -> allowed (Message (agent_name h) c).

Lemma preserves_ret {A} (a : A) : preserves P (ret a).
Proof. intros s Hs. exact Hs. Qed.

Lemma preserves_raise {A} e : preserves P (@raise A e).
Proof. intros s Hs. exact Hs. Qed.

Lemma preserves_bind {A B} (m : M A) (k : A -> M B) :
  preserves P m -> (forall a, preserves P (k a)) -> preserves P (bind m k).
Proof.
  intros Hm Hk s Hs. unfold bind. specialize (Hm s Hs).
  destruct (m s) as [[a| |e] s']; simpl in *; auto. now apply Hk.
Qed.

Lemma preserves_guarded b m : preserves P m -> preserves P (guarded b m).
Proof.
  intros Hm s Hs. unfold guarded. specialize (Hm s Hs).
  destruct (m s) as [[a| |e] s']; simpl in *; auto. now destruct b.
Qed.

Lemma preserves_for_each {A} (f : A -> M unit) xs :
  (forall x, In x xs -> preserves P (f x)) -> preserves P (for_each f xs).
Proof.
  induction xs as [|x xs IH]; intros Hf; simpl.
  - apply preserves_ret.
  - apply preserves_bind; [apply Hf; now left |].
    intros _. apply IH. intros y Hy. apply Hf. now right.
Qed.

Lemma preserves_quiet e : chat_entry e = None -> preserves P (emit e).
Proof. intros He s Hs. unfold emit. simpl. now apply P_quiet. Qed.

Lemma preserves_post m : allowed m -> preserves P (post m).
Proof.
  intros Hm [[l|] eff] Hs; unfold post, bind, append_message, chat_write, emit; simpl.
  - now apply P_post.
  - exact Hs.
Qed.

Lemma hook_entry_allowed mem h k m :
  In h (handlers_of mem) -> hook_entry h k = Some m -> allowed m.
Proof.
  intros Hh. destruct k as [ser o | a | o]; simpl; intros Hm.
  - destruct (o !! "input"); inversion Hm. apply allowed_assistant.
  - discriminate.
  - destruct (o !! "output"); inversion Hm. now apply (allowed_agent mem).
Qed.

Lemma preserves_invoke mem h k : In h (handlers_of mem) -> preserves P (invoke h k).
Proof.
  intros Hh s Hs.
  destruct (invoke_cases h k s) as [[e ->] | (l & m & Hl & Hm & ->)]; [exact Hs |].
  destruct s as [ms eff]. simpl in *. subst ms.
  apply P_post; [| exact Hs]. now apply (hook_entry_allowed mem h k).
Qed.

Lemma preserves_dispatch w c : preserves P (dispatch w c).
Proof.
  unfold dispatch. apply preserves_for_each. intros h Hh.
  apply preserves_guarded. now apply (preserves_invoke (fst c)).
Qed.

Lemma preserves_kickoff w crew : preserves P (project_crew_kickoff w crew).
Proof.
  unfold project_crew_kickoff.
  apply preserves_bind; [now apply preserves_quiet | intros _].
  apply preserves_bind.
  - apply preserves_for_each. intros c _. apply preserves_dispatch.
  - intros _. destruct (final _); [apply preserves_ret | apply preserves_raise].
Qed.

Lemma preserves_handle_prompt w prompt : preserves P (handle_prompt w prompt).
Proof.
  intros s Hs. rewrite handle_prompt_posts. revert s Hs.
  apply preserves_bind; [apply preserves_post, allowed_user | intros _].
  apply preserves_bind; [apply preserves_kickoff | intros out].
  apply preserves_post, allowed_assistant.
Qed.

Lemma preserves_prompt_and_disclaimer w : preserves P (prompt_and_disclaimer w).
Proof.
  unfold prompt_and_disclaimer.
  apply preserves_bind; [now apply preserves_quiet | intros _].
  apply preserves_bind; [| intros _; now apply preserves_quiet].
  destruct (chat_input w) as [p|]; [| apply preserves_ret].
  destruct (truthy p); [apply preserves_handle_prompt | apply preserves_ret].
Qed.

End Invariant.

(** ** The page and the log agree *)

Lemma chats_shown (l : list message) : chats (map shown l) = l.
Proof.
  induction l as [|[r c] l IH]; [reflexivity |].
  change (chats (map shown (Message r c :: l))) with (Message r c :: chats (map shown l)).
  now rewrite IH.
Qed.

Lemma chats_page_top (l : list message) : chats (page_top l) = l.
Proof. unfold page_top, chats. simpl. apply chats_shown. Qed.

Lemma chats_snoc_quiet es e : chat_entry e = None -> chats (es ++ [e]) = chats es.
Proof.
  intros He. unfold chats. rewrite omap_app. simpl. rewrite He. apply app_nil_r.
Qed.

Lemma chats_snoc_shown es m : chats (es ++ [shown m]) = chats es ++ [m].
Proof. unfold chats. rewrite omap_app. now destruct m. Qed.

(** X4: whenever an execution gets as far as the chat input, the chat messages
    on the page it leaves are exactly the entries of the log it leaves, in
    order: whatever the crew did, and also when the execution ended in an
    exception, nothing is logged without being drawn or drawn without being
    logged. *)
Theorem page_shows_the_log
    (w : world) (session : option (list message))
    (Hreached : In ChatInput (effects (snd (run w session)))) :
  messages (snd (run w session)) = Some (chats (effects (snd (run w session)))).
Proof.
  destruct (starts_up w) eqn:Hs.
  - destruct (check_password w) eqn:Hpw.
    + rewrite (run_gate_open w session Hs Hpw).
      apply (preserves_prompt_and_disclaimer synced (fun _ => True)); auto.
      * intros s e He Hsync. unfold synced in *. simpl. now rewrite chats_snoc_quiet.
      * intros l eff m _ Hsync. unfold synced in *. simpl in *.
        rewrite chats_snoc_shown. inversion Hsync as [Hl]. now rewrite <- Hl.
      * unfold synced. cbn [messages effects]. now rewrite chats_page_top.
    + exfalso. destruct (main_gate_closed w session Hpw) as [E | [e E]];
        rewrite E in Hreached; simpl in Hreached;
        [destruct Hreached as [H | [H | []]]; discriminate | exact Hreached].
  - exfalso. destruct (run_fails_to_start w session Hs) as [e E].
    rewrite E in Hreached. exact Hreached.
Qed.

Lemma page_shows_the_log_witness :
  In ChatInput
     (effects (snd (run (world_with_key true (Some "What is the claim limit?") run_crashed)
                      (Some [greeting]))))
  /\ messages (snd (run (world_with_key true (Some "What is the claim limit?") run_crashed)
                      (Some [greeting])))
     = Some (chats (effects
                      (snd (run (world_with_key true (Some "What is the claim limit?") run_crashed)
                              (Some [greeting]))))).
Proof.
  assert (Hreached :
    In ChatInput
       (effects (snd (run (world_with_key true (Some "What is the claim limit?") run_crashed)
                        (Some [greeting]))))).
  { vm_compute. tauto. }
  split; [exact Hreached |].
  exact (page_shows_the_log
           (world_with_key true (Some "What is the claim limit?") run_crashed)
           (Some [greeting]) Hreached).
Defined.

(** ** The roles in the log *)

Lemma registered_known mem h c :
  In h (handlers_of mem) -> known_role (Message (agent_name h) c).
Proof.
  intros Hh. unfold known_role. simpl role. right. right.
  unfold registered_names. apply in_map, in_flat_map. exists mem.
  split; [destruct mem; simpl; tauto | exact Hh].
Qed.

(** X5: the script never writes an entry under a role other than "user",
    "assistant" and the four names its handlers are registered with: a log
    with only such roles has only such roles after any execution, however it
    ends. *)
Theorem log_roles_stay_known
    (w : world) (session : option (list message))
    (Hknown : Forall known_role (default [] session)) :
  Forall known_role (log (snd (run w session))).
Proof.
  destruct (starts_up w) eqn:Hs.
  - destruct (check_password w) eqn:Hpw.
    + rewrite (run_gate_open w session Hs Hpw).
      apply (preserves_prompt_and_disclaimer
               (fun s => Forall known_role (log s)) known_role).
      * intros s e _ Hlog. exact Hlog.
      * intros l eff m Hm Hlog. unfold log in *. simpl in *.
        apply Forall_app. split; [exact Hlog | now constructor].
      * intros c. unfold known_role. simpl. tauto.
      * intros c. unfold known_role. simpl. tauto.
      * apply registered_known.
      * unfold log. simpl. destruct session as [l|]; simpl in *; [exact Hknown |].
        constructor; [| constructor]. unfold known_role. simpl. tauto.
    + destruct (main_gate_closed w session Hpw) as [E | [e E]]; now rewrite E.
  - destruct (run_fails_to_start w session Hs) as [e E]. now rewrite E.
Qed.

Lemma log_roles_stay_known_witness :
  Forall known_role (default [] (Some [greeting; Message "user" "hello"]))
  /\ Forall known_role
       (log (snd (run (world_with_key true (Some "Can I use MediSave for dialysis?")
                         run_researcher)
                    (Some [greeting; Message "user" "hello"])))).
Proof.
  assert (Hknown : Forall known_role (default [] (Some [greeting; Message "user" "hello"]))).
  { simpl. repeat constructor; unfold known_role; simpl; tauto. }
  split; [exact Hknown |].
  exact (log_roles_stay_known
           (world_with_key true (Some "Can I use MediSave for dialysis?") run_researcher)
           (Some [greeting; Message "user" "hello"]) Hknown).
Defined.

(** ** Callbacks that cannot log *)

(** X6: a callback method whose dict lacks the key it reads raises [KeyError]
    for that key, and one entered while the session has no log raises
    [AttributeError]; in both cases the log and the page are left exactly as
    they were. *)
Theorem callback_that_fails_changes_nothing
    (h : CustomHandler) (serialized d_in d_out : dict)
    (l : list message) (eff : list effect)
    (Hin : d_in !! "input" = None)
    (Hout : d_out !! "output" = None) :
  on_chain_start h serialized d_in (State (Some l) eff)
  = (Raised (KeyError "input"), State (Some l) eff)
  /\ on_agent_action h serialized d_in (State (Some l) eff)
     = (Raised (KeyError "input"), State (Some l) eff)
  /\ on_chain_end h d_out (State (Some l) eff)
     = (Raised (KeyError "output"), State (Some l) eff)
  /\ forall d,
       on_chain_start h serialized d (State None eff)
       = (Raised (AttributeError "messages"), State None eff)
       /\ on_agent_action h serialized d (State None eff)
          = (Raised (AttributeError "messages"), State None eff)
       /\ on_chain_end h d (State None eff)
          = (Raised (AttributeError "messages"), State None eff).
Proof.
  repeat split.
  - run_monad. now rewrite Hin.
  - run_monad. now rewrite Hin.
  - run_monad. now rewrite Hout.
Qed.

Lemma callback_that_fails_changes_nothing_witness :
  ({[ "output" := "done" ]} : dict) !! "input" = None
  /\ ({[ "input" := "hello" ]} : dict) !! "output" = None
  /\ on_chain_start (CustomHandler_init "Crew Manager") empty {[ "output" := "done" ]}
       (State (Some [greeting]) [])
     = (Raised (KeyError "input"), State (Some [greeting]) []).
Proof.
  split; [reflexivity | split; [reflexivity |]].
  apply (callback_that_fails_changes_nothing
           (CustomHandler_init "Crew Manager") empty
           {[ "output" := "done" ]} {[ "input" := "hello" ]} [greeting] []);
    reflexivity.
Defined.

(** ** How many entries a crew run adds *)






(** Of the three callbacks of that run two can log, and two entries are
    added. *)
Example researcher_run_adds_two_entries :
  length (calls run_researcher) = 3
  /\ log (snd (for_each
                 (dispatch (world_with_key true (Some "Can I use MediSave for dialysis?")
                              run_researcher))
                 (calls run_researcher) (State (Some [greeting]) [])))
     = [ greeting;
         Message "assistant" "Can I use MediSave for dialysis?";
         Message "Medisave Researcher" "MediSave can be used for renal dialysis." ].
Proof. split; vm_compute; reflexivity. Qed.

(** ** Sessions *)

(** X8: a fresh session has no log until an execution has started up and passed
    the password gate; from then on its log begins with the greeting. *)
Theorem fresh_session_log_starts_with_greeting (w : world) :
  if starts_up w && check_password w
  then exists added, messages (snd (run w None)) = Some (greeting :: added)
  else messages (snd (run w None)) = None.
Proof.
  destruct (starts_up w) eqn:Hs; simpl.
  - destruct (check_password w) eqn:Hpw.
    + rewrite (run_gate_open w None Hs Hpw).
      apply (preserves_prompt_and_disclaimer
               (fun s => exists added, messages s = Some (greeting :: added))
               (fun _ => True)); auto.
      * intros l eff m _ [added Hl]. simpl in *. inversion Hl; subst.
        now exists (added ++ [m]).
      * now exists [].
    + destruct (main_gate_closed w None Hpw) as [E | [e E]]; now rewrite E.
  - destruct (run_fails_to_start w None Hs) as [e E]. now rewrite E.
Qed.

(** X9: turns add up; after a completed turn, a second completed turn on the
    session it left draws the first turn's entries as chat history and
    leaves the log of the first followed by its own entries. *)
Theorem turns_accumulate
    (w1 w2 : world) (session : option (list message)) (p1 o1 p2 o2 : string)
    (H1 : completes w1 p1 o1) (H2 : completes w2 p2 o2) :
  messages (snd (run w2 (messages (snd (run w1 session)))))
  = Some (opening_log session ++ turn_log w1 p1 o1 ++ turn_log w2 p2 o2)
  /\ exists rest,
       effects (snd (run w2 (messages (snd (run w1 session)))))
       = page_top (opening_log session ++ turn_log w1 p1 o1) ++ rest.
Proof.
  rewrite (run_completed w1 session p1 o1 H1). cbn [snd messages].
  rewrite (run_completed w2 _ p2 o2 H2). cbn [snd messages effects].
  split.
  - rewrite (app_assoc (opening_log session) (turn_log w1 p1 o1)). reflexivity.
  - eexists. reflexivity.
Qed.

Lemma turns_accumulate_witness :
  completes (world_with_key true (Some "hello") run_no_findings) "hello" fallback
  /\ completes (world_with_key true (Some "Can I use MediSave for dialysis?") run_researcher)
       "Can I use MediSave for dialysis?"
       "Fellow Citizen, thank you for your enquiry. MediSave can be used for renal dialysis."
  /\ messages
       (snd (run (world_with_key true (Some "Can I use MediSave for dialysis?") run_researcher)
               (messages (snd (run (world_with_key true (Some "hello") run_no_findings) None)))))
     = Some (opening_log None
             ++ turn_log (world_with_key true (Some "hello") run_no_findings) "hello" fallback
             ++ turn_log (world_with_key true (Some "Can I use MediSave for dialysis?")
                            run_researcher)
                  "Can I use MediSave for dialysis?"
                  "Fellow Citizen, thank you for your enquiry. MediSave can be used for renal dialysis.").
Proof.
  assert (H1 : completes (world_with_key true (Some "hello") run_no_findings) "hello" fallback).
  { repeat split; try reflexivity. left; reflexivity. }
  assert (H2 : completes
                 (world_with_key true (Some "Can I use MediSave for dialysis?") run_researcher)
                 "Can I use MediSave for dialysis?"
                 "Fellow Citizen, thank you for your enquiry. MediSave can be used for renal dialysis.").
  { repeat split; try reflexivity. left; reflexivity. }
  split; [exact H1 | split; [exact H2 |]].
  exact (proj1 (turns_accumulate _ _ None _ _ _ _ H1 H2)).
Defined.

(** ** Where the key is looked up *)



(** A key exported in the environment alone does not start the script. *)
Example exported_key_alone_is_not_enough :
  environ world_env_only !! "OPENAI_API_KEY" = Some "sk-test"
  /\ run world_env_only None = (Raised StreamlitSecretNotFoundError, State None []).
Proof. split; reflexivity. Qed.
